(** * The root view [App] of the React template (src/App.tsx)

    The component is a function of no arguments whose body is one JSX
    expression.  JSX is sugar for calls of the element factory of the JSX
    runtime, evaluated innermost first, so [App] is embedded as a
    computation in a small render monad that threads the ambient world
    (global store, component state, I/O log) and can end in a thrown
    error.  The element tree is the data the factory builds: a tag, the
    JSX attributes in source order, and the children. *)

From Stdlib Require Import Ascii String.
From stdpp Require Import base strings list gmap.

Open Scope string_scope.

(** ** The ambient world of a render *)

Module World.

(** What a JavaScript function could do besides returning a value. *)
Inductive Effect : Type :=
| ConsoleIO (message : string)
| NetworkCall (url : string)
| StorageIO (key value : string).

Record t : Type := mk {
  globals : gmap string string;     (* module-level and window state *)
  component_state : list string;    (* hook cells of the mounted tree *)
  effects : list Effect             (* log of I/O performed so far *)
}.

Definition empty : t :=
  {| globals := ∅; component_state := []; effects := [] |}.

End World.

(** ** The render monad: state passing with a thrown-error outcome *)

Inductive Outcome (A : Type) : Type :=
| Returned (a : A)
| Thrown (error : string).
Arguments Returned {A} a.
Arguments Thrown {A} error.

Definition Render (A : Type) : Type := World.t -> Outcome A * World.t.

Definition ret {A} (a : A) : Render A := fun w => (Returned a, w).

Definition bind {A B} (m : Render A) (k : A -> Render B) : Render B :=
  fun w =>
    match m w with
    | (Returned a, w') => k a w'
    | (Thrown e, w') => (Thrown e, w')
    end.

Definition throw {A} (e : string) : Render A := fun w => (Thrown e, w).

Definition perform (eff : World.Effect) : Render unit :=
  fun w =>
    (Returned tt,
     {| World.globals := World.globals w;
        World.component_state := World.component_state w;
        World.effects := (World.effects w ++ [eff])%list |}).

Definition set_global (k v : string) : Render unit :=
  fun w =>
    (Returned tt,
     {| World.globals := <[k := v]> (World.globals w);
        World.component_state := World.component_state w;
        World.effects := World.effects w |}).

Declare Scope render_scope.
Delimit Scope render_scope with render.
Notation "x <- m ;; k" := (bind m (fun x => k))
  (at level 100, m at next level, right associativity) : render_scope.
Open Scope render_scope.

(** ** Element trees *)

(** The value of a JSX attribute: a string literal, or a callback (the
    only way an element reacts to an event). *)
Inductive PropValue : Type :=
| PropString (s : string)
| PropHandler (h : string -> Render unit).

(** A child of an element is literal text or another element. *)
Inductive ReactElement : Type :=
| mkElement (type : string) (attrs : list (string * PropValue))
            (children : list ReactChild)
with ReactChild : Type :=
| ChildText (s : string)
| ChildElement (e : ReactElement).

Definition type_of (e : ReactElement) : string :=
  match e with mkElement ty _ _ => ty end.

Definition attrs_of (e : ReactElement) : list (string * PropValue) :=
  match e with mkElement _ a _ => a end.

Definition children_of (e : ReactElement) : list ReactChild :=
  match e with mkElement _ _ c => c end.

(** The element factory of the JSX runtime: it allocates the element
    record and touches nothing else. *)
Definition jsx (type : string) (attrs : list (string * PropValue))
    (children : list ReactChild) : Render ReactElement :=
  ret (mkElement type attrs children).

(** ** The component *)

(** [function App() { return ( <div ...><div ...><h1 ...>..</h1><p ...>..</p></div></div> ); }]
    The children are built before the element that holds them. *)
Definition App : Render ReactElement :=
  h1 <- jsx "h1" [("className", PropString "text-4xl font-bold text-slate-900")]
            [ChildText "React + Vite + TypeScript"] ;;
  p <- jsx "p" [("className", PropString "mt-4 text-slate-600")]
           [ChildText "Ready to go!"] ;;
  inner <- jsx "div" [("className", PropString "text-center")]
               [ChildElement h1; ChildElement p] ;;
  jsx "div"
      [("className",
        PropString "flex min-h-screen items-center justify-center bg-slate-50")]
      [ChildElement inner].

(** ** Observations on an element tree *)

(** Every element of a tree, in document order (the root first). *)
Fixpoint elements (e : ReactElement) : list ReactElement :=
  match e with
  | mkElement _ _ cs =>
      e :: (fix go (cs : list ReactChild) : list ReactElement :=
              match cs with
              | [] => []
              | c :: cs' => (child_elements c ++ go cs')%list
              end) cs
  end
with child_elements (c : ReactChild) : list ReactElement :=
  match c with
  | ChildText _ => []
  | ChildElement e => elements e
  end.

(** The text of an element: the text of its descendants, concatenated in
    document order. *)
Fixpoint text_content (e : ReactElement) : string :=
  match e with
  | mkElement _ _ cs =>
      (fix go (cs : list ReactChild) : string :=
         match cs with
         | [] => ""
         | c :: cs' => String.append (child_text c) (go cs')
         end) cs
  end
with child_text (c : ReactChild) : string :=
  match c with
  | ChildText s => s
  | ChildElement e => text_content e
  end.

Definition is_heading_tag (tag : string) : bool :=
  existsb (String.eqb tag) ["h1"; "h2"; "h3"; "h4"; "h5"; "h6"].

Definition is_heading (e : ReactElement) : bool := is_heading_tag (type_of e).

Definition is_paragraph (e : ReactElement) : bool := String.eqb (type_of e) "p".

(** The names of the attributes an element carries, in source order. *)
Definition attr_names (e : ReactElement) : list string := (attrs_of e).*1.

Fixpoint lookup_string (k : string) (attrs : list (string * PropValue))
    : option string :=
  match attrs with
  | [] => None
  | (k', v) :: rest =>
      if String.eqb k k'
      then match v with PropString s => Some s | PropHandler _ => None end
      else lookup_string k rest
  end.

Definition class_name (e : ReactElement) : option string :=
  lookup_string "className" (attrs_of e).

(** The space-separated tokens of a class string. *)
Fixpoint fields (s : string) : list string :=
  match s with
  | EmptyString => [""]
  | String c s' =>
      if Ascii.eqb c " "%char then "" :: fields s'
      else match fields s' with
           | [] => [String c ""]
           | t :: ts => String c t :: ts
           end
  end.

Definition class_tokens (e : ReactElement) : list string :=
  match class_name e with
  | Some s => filter (fun t => t <> "") (fields s)
  | None => []
  end.

Definition has_class (tok : string) (e : ReactElement) : bool :=
  existsb (String.eqb tok) (class_tokens e).

(** The callbacks an element carries, with the attribute that binds them. *)
Fixpoint handlers (attrs : list (string * PropValue))
    : list (string * (string -> Render unit)) :=
  match attrs with
  | [] => []
  | (k, PropHandler h) :: rest => (k, h) :: handlers rest
  | (_, PropString _) :: rest => handlers rest
  end.

Definition event_handlers (e : ReactElement)
    : list (string * (string -> Render unit)) :=
  handlers (attrs_of e).

(** Delivering the event bound to attribute [prop] (for instance onClick)
    with [payload] to an element runs each callback bound to it. *)
Fixpoint run_handlers (prop payload : string)
    (hs : list (string * (string -> Render unit))) : Render unit :=
  match hs with
  | [] => ret tt
  | (k, h) :: rest =>
      if String.eqb k prop
      then (_ <- h payload ;; run_handlers prop payload rest)
      else run_handlers prop payload rest
  end.

Definition fire (prop payload : string) (e : ReactElement) : Render unit :=
  run_handlers prop payload (event_handlers e).

(** A computation is silent when, from every world, it returns a value and
    hands the world back as it found it. *)
Definition silent {A} (m : Render A) : Prop :=
  forall w, exists a, m w = (Returned a, w).

(** It is constant when the value does not depend on the world either. *)
Definition yields {A} (m : Render A) (a : A) : Prop :=
  forall w, m w = (Returned a, w).

(** The value the JSX expression of [App] denotes. *)
Definition App_tree : ReactElement :=
  mkElement "div"
    [("className",
      PropString "flex min-h-screen items-center justify-center bg-slate-50")]
    [ChildElement
       (mkElement "div" [("className", PropString "text-center")]
          [ChildElement
             (mkElement "h1"
                [("className", PropString "text-4xl font-bold text-slate-900")]
                [ChildText "React + Vite + TypeScript"]);
           ChildElement
             (mkElement "p" [("className", PropString "mt-4 text-slate-600")]
                [ChildText "Ready to go!"])])].

(** Two renders in succession, the second from the world the first left. *)
Definition render_twice : Render (ReactElement * ReactElement) :=
  first <- App ;;
  second <- App ;;
  ret (first, second).

(** The text children of a tree, in document order.  JSX drops the line
    breaks and indentation between tags, so only literal text inside a tag
    becomes a text child. *)
Fixpoint text_nodes (e : ReactElement) : list string :=
  match e with
  | mkElement _ _ cs =>
      (fix go (cs : list ReactChild) : list string :=
         match cs with
         | [] => []
         | c :: cs' => (child_text_nodes c ++ go cs')%list
         end) cs
  end
with child_text_nodes (c : ReactChild) : list string :=
  match c with
  | ChildText s => [s]
  | ChildElement e => text_nodes e
  end.

(** * Properties *)

(** ** Laws of the render monad used below *)

Section RenderLaws.

Context {A B : Type}.

Lemma yields_ret (a : A) : yields (ret a) a.
Proof. intros w. reflexivity. Qed.

Lemma yields_bind (m : Render A) (k : A -> Render B) (a : A) (b : B) :
  yields m a -> yields (k a) b -> yields (bind m k) b.
Proof.
  intros Hm Hk w. unfold bind. rewrite (Hm w). apply Hk.
Qed.

Lemma yields_silent (m : Render A) (a : A) : yields m a -> silent m.
Proof. intros Hm w. exists a. apply Hm. Qed.

Lemma silent_bind (m : Render A) (k : A -> Render B) :
  silent m -> (forall a, silent (k a)) -> silent (bind m k).
Proof.
  intros Hm Hk w. destruct (Hm w) as [a Ha].
  destruct (Hk a w) as [b Hb]. exists b.
  unfold bind. rewrite Ha. exact Hb.
Qed.

Lemma bind_thrown (m : Render A) (k : A -> Render B) (e : string) w w' :
  m w = (Thrown e, w') -> bind m k w = (Thrown e, w').
Proof. intros Hm. unfold bind. rewrite Hm. reflexivity. Qed.

End RenderLaws.

Lemma yields_jsx type attrs children :
  yields (jsx type attrs children) (mkElement type attrs children).
Proof. apply yields_ret. Qed.

(** The predicates tell effectful computations apart: a computation that
    logs, writes or throws is not silent. *)
Lemma perform_not_silent eff : ~ silent (perform eff).
Proof.
  intros H. destruct (H World.empty) as [[] Heq].
  apply (f_equal (fun r => length (World.effects (snd r)))) in Heq.
  simpl in Heq. discriminate.
Qed.

Lemma set_global_not_silent k v : ~ silent (set_global k v).
Proof.
  intros H. destruct (H World.empty) as [[] Heq].
  apply (f_equal (fun r => World.globals (snd r) !! k)) in Heq.
  simpl in Heq. rewrite lookup_insert_eq, lookup_empty in Heq. discriminate.
Qed.

Lemma throw_not_silent {A} (e : string) : ~ silent (@throw A e).
Proof. intros H. destruct (H World.empty) as [a Heq]. discriminate. Qed.

(** ** The render of [App] *)

Lemma App_yields : yields App App_tree.
Proof.
  unfold App, App_tree.
  eapply yields_bind; [apply yields_jsx|].
  eapply yields_bind; [apply yields_jsx|].
  eapply yields_bind; [apply yields_jsx|].
  apply yields_jsx.
Qed.

Lemma App_returns w : (App w).1 = Returned App_tree.
Proof. rewrite App_yields. reflexivity. Qed.

Lemma App_world w : (App w).2 = w.
Proof. rewrite App_yields. reflexivity. Qed.

(** ** Facts about trees *)

Lemma elements_root e : In e (elements e).
Proof. destruct e. simpl. left. reflexivity. Qed.

Lemma handlers_only_strings attrs :
  Forall (fun kv => exists s, kv.2 = PropString s) attrs -> handlers attrs = [].
Proof.
  induction 1 as [|[k v] rest [s Hs] _ IH]; simpl in *; [reflexivity|].
  subst v. exact IH.
Qed.

Lemma fire_without_handlers prop payload e :
  event_handlers e = [] -> yields (fire prop payload e) tt.
Proof. intros H. unfold fire. rewrite H. apply yields_ret. Qed.

(** An element that does carry a callback reacts: the callback runs. *)
Lemma fire_runs_bound_handler payload w :
  (fire "onClick" payload
     (mkElement "button"
        [("onClick", PropHandler (fun p => perform (World.ConsoleIO p)))] [])
     w).2 <> w.
Proof.
  intros H. apply (f_equal (fun w => length (World.effects w))) in H.
  simpl in H. rewrite length_app in H. simpl in H. lia.
Qed.

(** ** The claims *)

Local Ltac returned_tree :=
  intros w; exists App_tree; split; [apply App_returns|].

(** C1: every invocation of [App] returns a tree that contains a heading
    element whose text is exactly "React + Vite + TypeScript". *)
Theorem App_contains_heading_text :
  forall w, exists t h,
    (App w).1 = Returned t /\
    In h (elements t) /\
    is_heading h = true /\
    children_of h = [ChildText "React + Vite + TypeScript"] /\
    text_content h = "React + Vite + TypeScript".
Proof.
  intros w. exists App_tree. eexists. split; [apply App_returns|].
  split.
  - simpl. right. right. left. reflexivity.
  - split; [reflexivity|]. split; reflexivity.
Qed.

(** C2: every invocation of [App] returns a tree that contains a paragraph
    element whose text is exactly "Ready to go!". *)
Theorem App_contains_paragraph_text :
  forall w, exists t p,
    (App w).1 = Returned t /\
    In p (elements t) /\
    is_paragraph p = true /\
    children_of p = [ChildText "Ready to go!"] /\
    text_content p = "Ready to go!".
Proof.
  intros w.
  exists App_tree,
    (mkElement "p" [("className", PropString "mt-4 text-slate-600")]
       [ChildText "Ready to go!"]).
  split; [apply App_returns|].
  repeat split. simpl. tauto.
Qed.

(** C3: any two invocations of [App] return equal trees, and two renders in
    succession (the second starting from the world the first left) return
    the same tree twice. *)
Theorem App_deterministic :
  (forall w1 w2, (App w1).1 = (App w2).1) /\
  (forall w, exists t, (render_twice w).1 = Returned (t, t)).
Proof.
  split.
  - intros w1 w2. rewrite !App_returns. reflexivity.
  - intros w. exists App_tree.
    assert (H : yields render_twice (App_tree, App_tree)).
    { unfold render_twice.
      eapply yields_bind; [apply App_yields|].
      eapply yields_bind; [apply App_yields|].
      apply yields_ret. }
    rewrite H. reflexivity.
Qed.

(** C4: [App] returns one fixed tree: a single outer full-viewport
    centering container whose only child is an inner text block, which
    holds a heading with its string and a paragraph with its string. *)
Theorem App_fixed_nested_containers :
  exists outer inner h p htext ptext,
    (forall w, (App w).1 = Returned outer) /\
    type_of outer = "div" /\
    has_class "min-h-screen" outer = true /\
    has_class "flex" outer = true /\
    has_class "items-center" outer = true /\
    has_class "justify-center" outer = true /\
    children_of outer = [ChildElement inner] /\
    type_of inner = "div" /\
    has_class "text-center" inner = true /\
    children_of inner = [ChildElement h; ChildElement p] /\
    is_heading h = true /\ children_of h = [ChildText htext] /\
    is_paragraph p = true /\ children_of p = [ChildText ptext].
Proof.
  exists App_tree. do 5 eexists.
  split; [exact App_returns|].
  unfold App_tree; cbn [type_of children_of].
  repeat match goal with |- _ /\ _ => split end;
    try reflexivity; vm_compute; reflexivity.
Qed.

(** C5: [App] is total and cannot fail: from every world it returns a
    tree, and it never ends in a thrown error. *)
Theorem App_total_never_throws :
  (forall w, exists t, (App w).1 = Returned t) /\
  (forall w e, (App w).1 <> Thrown e).
Proof.
  split.
  - intros w. destruct (yields_silent _ _ App_yields w) as [t Ht].
    exists t. rewrite Ht. reflexivity.
  - intros w e. rewrite App_returns. discriminate.
Qed.

(** C6: [App] has no observable side effect: the world after the call is
    the world before it, so nothing is added to the I/O log (no I/O, no
    network call) and the global and component state are unchanged. *)
Theorem App_no_side_effects :
  forall w,
    (App w).2 = w /\
    World.effects (App w).2 = World.effects w /\
    World.globals (App w).2 = World.globals w /\
    World.component_state (App w).2 = World.component_state w.
Proof.
  intros w. pose proof (App_world w) as H.
  rewrite H. repeat split.
Qed.

(** C7: on every invocation the elements of the returned tree carry, in
    document order, exactly the fixed class strings: the outer container,
    the inner block, the heading and the paragraph. *)
Theorem App_fixed_class_strings :
  forall w, exists t,
    (App w).1 = Returned t /\
    map (fun e => (type_of e, class_name e)) (elements t) =
      [("div", Some "flex min-h-screen items-center justify-center bg-slate-50");
       ("div", Some "text-center");
       ("h1", Some "text-4xl font-bold text-slate-900");
       ("p", Some "mt-4 text-slate-600")].
Proof. returned_tree. reflexivity. Qed.

(** C8: the returned tree has exactly one heading element and exactly one
    paragraph element, and they are the two children of the inner text
    block, the heading first. *)
Theorem App_one_heading_then_one_paragraph :
  forall w, exists t inner h p,
    (App w).1 = Returned t /\
    length (List.filter is_heading (elements t)) = 1 /\
    length (List.filter is_paragraph (elements t)) = 1 /\
    In inner (elements t) /\
    class_name inner = Some "text-center" /\
    children_of inner = [ChildElement h; ChildElement p] /\
    is_heading h = true /\
    is_paragraph p = true.
Proof.
  intros w. exists App_tree.
  destruct (children_of App_tree) as [|[s|inner] rest] eqn:Hc;
    try discriminate Hc.
  exists inner. injection Hc as <- _.
  do 2 eexists. split; [apply App_returns|].
  split; [reflexivity|]. split; [reflexivity|].
  split; [simpl; right; left; reflexivity|].
  repeat split.
Qed.

(** C9: the heading of the returned tree is a level-1 heading: the only
    heading element of the tree has tag h1. *)
Theorem App_heading_is_h1 :
  forall w, exists t,
    (App w).1 = Returned t /\
    map type_of (List.filter is_heading (elements t)) = ["h1"].
Proof. returned_tree. vm_compute. reflexivity. Qed.

(** C10: every element of the returned tree carries className as its only
    attribute and no event handler, so delivering any event to any element
    of the tree does nothing. *)
Theorem App_output_inert :
  forall w, exists t,
    (App w).1 = Returned t /\
    Forall (fun e =>
              attr_names e = ["className"] /\
              event_handlers e = [] /\
              forall prop payload w',
                fire prop payload e w' = (Returned tt, w'))
           (elements t).
Proof.
  returned_tree.
  assert (Hh : Forall (fun e => attr_names e = ["className"] /\
                                event_handlers e = []) (elements App_tree)).
  { simpl. repeat constructor;
      apply handlers_only_strings; repeat constructor; simpl; eauto. }
  eapply Forall_impl; [exact Hh|].
  intros e [Hn He]. repeat split; try assumption.
  intros prop payload w'. apply fire_without_handlers, He.
Qed.

(** ** Further properties of [App] *)


(** X2: the returned tree has exactly two text children, the heading text
    and the paragraph text in this order; the line breaks between the tags
    of the source give no text.  The text of the whole tree is the two
    strings joined with nothing between them. *)
Theorem App_text_is_heading_then_paragraph :
  forall w, exists t,
    (App w).1 = Returned t /\
    text_nodes t = ["React + Vite + TypeScript"; "Ready to go!"] /\
    text_content t =
      String.append "React + Vite + TypeScript" "Ready to go!".
Proof.
  intros w. exists App_tree. split; [apply App_returns|].
  split.
  - unfold App_tree. cbn [text_nodes child_text_nodes app]. reflexivity.
  - unfold App_tree. cbn. reflexivity.
Qed.

(** X3: every class string of the returned tree is a clean token list:
    it is not empty, splitting it at spaces gives no empty token (no
    leading, trailing or doubled space) and no token twice. *)
Theorem App_class_strings_normalised :
  forall w, exists t,
    (App w).1 = Returned t /\
    Forall (fun e => exists s,
              class_name e = Some s /\
              s <> "" /\
              Forall (fun tok => tok <> "") (fields s) /\
              NoDup (fields s))
           (elements t).
Proof.
  intros w. exists App_tree. split; [apply App_returns|].
  unfold App_tree. cbn [elements child_elements app].
  repeat apply Forall_cons_2; try apply Forall_nil_2;
    (eexists; split; [reflexivity|]; split; [discriminate|]; split;
     [ apply (bool_decide_unpack _); vm_compute; reflexivity
     | apply (bool_decide_unpack _); vm_compute; reflexivity ]).
Qed.
